(** * jupyter_utils: the [%%background] and [%notify] magics

    A shallow embedding of [jupyter_utils/background.py] and, further down,
    of [jupyter_magics/bell_magic.py].  The magic [%%background] reads
    the notebook document of the running kernel, rebuilds the source of the
    code cells up to the cell that invoked it, writes that source to a
    temporary file next to the notebook and starts [python] on it.

    Strings are Rocq [string]s, that is byte strings; a Python [str] is read
    as its UTF-8 encoding.  The only characters the program inspects are
    ['%'] and the characters of ["%%background"], all of them ASCII, and an
    ASCII byte never occurs inside a multi-byte UTF-8 sequence, so scanning
    bytes and scanning code points select the same characters. *)

From Stdlib Require Import List String Ascii Bool QArith.
Import ListNotations.
Open Scope list_scope.
Open Scope string_scope.

(** ** Python values and primitives used by the program *)

(** The line feed character, written ["\n"] in the source. *)
Definition LF : ascii := "010"%char.
Definition nl : string := String LF "".

(** [s.startswith(p)]. *)
Definition startswith (s p : string) : bool := String.prefix p s.

(** [sep.join(l)]. *)
Definition join (sep : string) (l : list string) : string := String.concat sep l.

(** The [source] entry of a cell after [json.load]: the notebook format
    allows a list of strings and a single string. *)
Inductive Source : Type :=
| SrcList (l : list string)
| SrcStr (s : string).

(** A cell object: the two keys the program reads.  The model takes the
    documents the notebook format describes: [nb["cells"]] is a list of
    objects that have both keys, with a string for [cell_type].  On a
    document of another shape the program raises [KeyError] or [TypeError]
    before it writes anything; such documents are left out. *)
Record Cell : Type := mkCell { cell_type : string; source : Source }.

(** The exceptions that can leave [background]. *)
Inductive exn : Type :=
| IndexError
| FileNotFoundError
| PermissionError
| JSONDecodeError
| OSError (what : string).

Definition result (A : Type) : Type := (exn + A)%type.
Definition Ok {A} (a : A) : result A := inr a.
Definition Raise {A} (e : exn) : result A := inl e.

(** Truth value of a source: [not cell["source"]] is true of the empty list
    and of the empty string. *)
Definition truthy (src : Source) : bool :=
  match src with
  | SrcList [] => false
  | SrcList (_ :: _) => true
  | SrcStr EmptyString => false
  | SrcStr (String _ _) => true
  end.

(** The characters of a string, each as a string of length one: what
    iterating over a Python [str] yields. *)
Fixpoint chars (s : string) : list string :=
  match s with
  | EmptyString => []
  | String c s' => String c "" :: chars s'
  end.

(** [for line in src]: the elements of a list, the characters of a string. *)
Definition iter (src : Source) : list string :=
  match src with
  | SrcList l => l
  | SrcStr s => chars s
  end.

(** [src[0]]: the first element of a list, the first character of a string;
    [IndexError] when there is none. *)
Definition getitem0 (src : Source) : result string :=
  match iter src with
  | [] => Raise IndexError
  | x :: _ => Ok x
  end.

(** [src[1:]]: a list without its first element, a string without its first
    character; the empty sequence stays empty. *)
Definition slice_from1 (src : Source) : Source :=
  match src with
  | SrcList l => SrcList (tl l)
  | SrcStr EmptyString => SrcStr EmptyString
  | SrcStr (String _ s') => SrcStr s'
  end.

(** ** The loop of [background] (lines 25 to 46) *)

(** The list comprehension of line 42. *)
Definition not_line_magic (line : string) : bool := negb (startswith line "%").

Definition kept_lines (src : Source) : list string :=
  filter not_line_magic (iter src).

(** How one iteration of the [for] loop ends. *)
Inductive control : Type :=
| Continue (code : string) (terminate : bool)
| Break (code : string) (terminate : bool).

(** The loop body, on the loop state [(code, terminate)].  Lines 33 to 38
    either leave the cell as it is, or replace its source by [source[1:]]
    and set [terminate], or [continue]. *)
Definition loop_body (cell : Cell) (code : string) (terminate : bool)
  : result control :=
  if negb (cell_type cell =? "code") || negb (truthy (source cell)) then
    Ok (Continue code terminate)
  else
    match getitem0 (source cell) with
    | inl e => Raise e
    | inr first =>
        let after_magic :=
          if startswith first "%%" then
            if startswith first "%%background" then
              Some (slice_from1 (source cell), true)
            else None
          else Some (source cell, terminate) in
        match after_magic with
        | None => Ok (Continue code terminate)
        | Some (src, terminate) =>
            let code := code ++ (join "" (kept_lines src) ++ nl) in
            if terminate then Ok (Break code terminate)
            else Ok (Continue code terminate)
        end
    end.

(** The [for] loop over [nb["cells"]]. *)
Fixpoint loop (cells : list Cell) (code : string) (terminate : bool)
  : result string :=
  match cells with
  | [] => Ok code
  | cell :: rest =>
      match loop_body cell code terminate with
      | inl e => Raise e
      | inr (Continue code terminate) => loop rest code terminate
      | inr (Break code _) => Ok code
      end
  end.

(** Lines 25 to 46: the source handed to the new process. *)
Definition reconstruct (cells : list Cell) : result string :=
  loop cells "" false.

(** ** The effects of [background] (lines 20 to 23 and 48 to 55)

    What the program does to the world is recorded as a trace of events.
    Reading the notebook changes nothing and leaves no event.  The answers
    of the world (which file the kernel runs, whether a file can be read,
    created or executed) are the fields of a [World]. *)

Record Notebook : Type := mkNotebook { cells : list Cell }.

Inductive event : Type :=
| TempCreated (dir name : string)
| TempWritten (name data : string)
| TempSeek (name : string) (pos : nat)
| Spawned (argv : list string)
| Slept (seconds : Q)
| TempDeleted (name : string).

Record World : Type := mkWorld {
  (** [jupyter_utils.get_notebook_name()], defined outside this module. *)
  get_notebook_name : result string;
  (** [open(nb_fname)] followed by [json.load(f)]. *)
  open_json_load : string -> result Notebook;
  (** [os.path.dirname]. *)
  dirname : string -> string;
  (** [NamedTemporaryFile("w", dir=d)]: the name of the new file. *)
  new_temp : string -> result string;
  (** [tmp.write(data)] and [tmp.seek(pos)] on the file of that name. *)
  do_write : string -> string -> result unit;
  do_seek : string -> nat -> result unit;
  (** [Popen(argv)]. *)
  do_popen : list string -> result unit
}.

(** Computations that leave a trace and may raise. *)
Definition IO (A : Type) : Type := (list event * result A)%type.

Definition ret {A} (a : A) : IO A := ([], Ok a).

Definition bind {A B} (m : IO A) (k : A -> IO B) : IO B :=
  match m with
  | (t, inl e) => (t, inl e)
  | (t, inr a) => let (t', r) := k a in (t ++ t', r)%list
  end.

Notation "x <- m ;; k" := (bind m (fun x => k))
  (at level 61, m at next level, right associativity).

(** A call that changes nothing. *)
Definition pure_call {A} (r : result A) : IO A := ([], r).

(** A call that leaves the event [ev] when it succeeds. *)
Definition effect_call (r : result unit) (ev : event) : IO unit :=
  match r with
  | inl e => ([], inl e)
  | inr _ => ([ev], Ok tt)
  end.

Definition tmp_write (w : World) (name data : string) : IO unit :=
  effect_call (do_write w name data) (TempWritten name data).

Definition tmp_seek (w : World) (name : string) (pos : nat) : IO unit :=
  effect_call (do_seek w name pos) (TempSeek name pos).

Definition Popen (w : World) (argv : list string) : IO unit :=
  effect_call (do_popen w argv) (Spawned argv).

Definition sleep (seconds : Q) : IO unit := ([Slept seconds], Ok tt).

(** [with NamedTemporaryFile("w", dir=d) as tmp: body]: the file is closed
    and deleted when the block is left, by its end or by an exception.  The
    exit itself is taken to succeed here; [with_NamedTemporaryFile_exit]
    below has the exit that can fail, and [background_exit_succeeds] relates
    the two. *)
Definition with_NamedTemporaryFile {A} (w : World) (d : string)
    (body : string -> IO A) : IO A :=
  match new_temp w d with
  | inl e => ([], inl e)
  | inr name =>
      let (t, r) := body name in
      (TempCreated d name :: t ++ [TempDeleted name], r)%list
  end.

(** The cell magic.  Its arguments [line] and [cell] are not read: the loop
    variable of line 28 hides [cell]. *)
Definition background (w : World) (line cell : string) : IO unit :=
  nb_fname <- pure_call (get_notebook_name w) ;;
  nb <- pure_call (open_json_load w nb_fname) ;;
  code <- pure_call (reconstruct (cells nb)) ;;
  with_NamedTemporaryFile w (dirname w nb_fname) (fun tmp =>
    _ <- tmp_write w tmp code ;;
    _ <- tmp_seek w tmp 0 ;;
    _ <- Popen w ["python"; tmp] ;;
    sleep (1 # 2)).

(** ** Vocabulary of the specification *)

Definition code_cell (l : list string) : Cell := mkCell "code" (SrcList l).

(** A cell the loop does not skip at line 30. *)
Definition has_source (c : Cell) : bool :=
  (cell_type c =? "code") && truthy (source c).

(** The first source line of a cell, when it has one. *)
Definition first_line (c : Cell) : option string := hd_error (iter (source c)).

Definition first_line_startswith (c : Cell) (p : string) : bool :=
  match first_line c with
  | Some l => startswith l p
  | None => false
  end.

(** The cell carries the directive that runs the notebook in the background. *)
Definition is_terminal (c : Cell) : bool :=
  has_source c && first_line_startswith c "%%background".

(** The cell carries another cell-level directive. *)
Definition is_other_magic (c : Cell) : bool :=
  has_source c && first_line_startswith c "%%"
  && negb (first_line_startswith c "%%background").

(** The cell is a code cell with source and without a cell-level directive. *)
Definition eligible (c : Cell) : bool :=
  has_source c && negb (first_line_startswith c "%%").

(** What an included source adds to the accumulated code. *)
Definition contribution (src : Source) : string :=
  join "" (kept_lines src) ++ nl.

(** The sources that are included, in order: the eligible cells before the
    first terminal cell, then that cell without its first line. *)
Fixpoint included (doc : list Cell) : list Source :=
  match doc with
  | [] => []
  | c :: rest =>
      if is_terminal c then [slice_from1 (source c)]
      else if eligible c then source c :: included rest
      else included rest
  end.

Definition render (srcs : list Source) : string :=
  join "" (map contribution srcs).

(** The accumulation as the specification words it: the filtered lines of a
    cell joined by newlines, followed by one newline. *)
Definition spec_contribution (src : Source) : string :=
  join nl (kept_lines src) ++ nl.

Definition spec_render (srcs : list Source) : string :=
  join "" (map spec_contribution srcs).

(** A string holds at most one line: a line feed can only be its last
    character. *)
Fixpoint single_line (s : string) : bool :=
  match s with
  | EmptyString => true
  | String c s' => if Ascii.eqb c LF then (s' =? "") else single_line s'
  end.

(** [s.split("\n")]: the lines of a text. *)
Fixpoint split_lines (s : string) : list string :=
  match s with
  | EmptyString => [""]
  | String c s' =>
      if Ascii.eqb c LF then "" :: split_lines s'
      else match split_lines s' with
           | [] => [String c ""]
           | l :: ls => String c l :: ls
           end
  end.

(** Every source entry of every cell is one line. *)
Definition line_sources (doc : list Cell) : Prop :=
  forall c, In c doc -> forall l, In l (iter (source c)) -> single_line l = true.


(** ** Traces and lines *)

(** No line of the text starts with ['%']. *)
Definition no_magic_line (text : string) : Prop :=
  Forall (fun l => startswith l "%" = false) (split_lines text).

Definition is_TempCreated (ev : event) : bool :=
  match ev with TempCreated _ _ => true | _ => false end.

Definition is_TempDeleted (ev : event) : bool :=
  match ev with TempDeleted _ => true | _ => false end.

(** The trace of a run whose process was started. *)
Definition launched_trace (d name code : string) : list event :=
  [TempCreated d name; TempWritten name code; TempSeek name 0;
   Spawned ["python"; name]; Slept (1 # 2); TempDeleted name].

(** The trace of a run whose [Popen] raised. *)
Definition failed_launch_trace (d name code : string) : list event :=
  [TempCreated d name; TempWritten name code; TempSeek name 0;
   TempDeleted name].

(** ** Notebooks and worlds used as examples *)

(** A cell whose source is the single string [s]. *)
Definition string_cell (s : string) : Cell := mkCell "code" (SrcStr s).

(** The notebook of the worked example: three code cells. *)
Definition example_doc : list Cell :=
  [code_cell ["import os"; ""]; code_cell ["%%background"]; code_cell ["x = 1"]].

(** A notebook with one code cell of two lines. *)
Definition two_line_doc : list Cell := [code_cell ["x = 1"; "y = 2"]].

(** The cells in front of a terminal cell: text, a shell cell, code. *)
Definition leading_cells : list Cell :=
  [mkCell "markdown" (SrcList ["# title"]); code_cell ["%%bash"; "ls"];
   code_cell ["import os"]].

(** A notebook without the directive. *)
Definition plain_doc : list Cell :=
  [code_cell ["a = 1"]; mkCell "markdown" (SrcList ["some text"]);
   code_cell ["%%bash"; "ls"]; code_cell []; code_cell ["%time"; "b = 2"]].

(** A notebook with line magics, its lines stored with their line ends. *)
Definition magic_doc : list Cell :=
  [code_cell ["%matplotlib inline" ++ nl; "x = 1" ++ nl; "%time f(x)"];
   code_cell ["%%background"; "%load_ext foo"; "y = 2"];
   code_cell ["%pwd"]].

(** A notebook one source entry of which holds two lines. *)
Definition two_lines_in_entry_doc : list Cell :=
  [code_cell ["x = 1" ++ nl ++ "%time f(x)"]].

(** A world in which nothing fails: the kernel runs [/home/u/nb.ipynb],
    which holds the cells [doc]. *)
Definition good_world (doc : list Cell) : World :=
  mkWorld (Ok "/home/u/nb.ipynb") (fun _ => Ok (mkNotebook doc))
          (fun _ => "/home/u") (fun _ => Ok "/home/u/tmpk3f9")
          (fun _ _ => Ok tt) (fun _ _ => Ok tt) (fun _ => Ok tt).


(** A world whose notebook file is gone. *)
Definition missing_file_world : World :=
  mkWorld (Ok "/home/u/nb.ipynb") (fun _ => Raise FileNotFoundError)
          (fun _ => "/home/u") (fun _ => Ok "/home/u/tmpk3f9")
          (fun _ _ => Ok tt) (fun _ _ => Ok tt) (fun _ => Ok tt).

(** ** Runs of [background] in any world *)

Definition is_Spawned (ev : event) : bool :=
  match ev with Spawned _ => true | _ => false end.

(** The trace of a run whose [tmp.write] raised. *)
Definition failed_write_trace (d name : string) : list event :=
  [TempCreated d name; TempDeleted name].

(** The trace of a run whose [tmp.seek] raised. *)
Definition failed_seek_trace (d name code : string) : list event :=
  [TempCreated d name; TempWritten name code; TempDeleted name].

(** A string without its characters ['%']. *)
Fixpoint remove_percent (s : string) : string :=
  match s with
  | EmptyString => EmptyString
  | String c s' =>
      if Ascii.eqb c "%" then remove_percent s' else String c (remove_percent s')
  end.

(** ** The notification magic ([jupyter_magics/bell_magic.py])

    [%notify] runs a piece of code and plays a sound when it is done.  The
    calls into IPython (parsing the arguments, running the code, building
    and showing the audio element) are answers of a [BellWorld]; an
    exception is known by its text. *)

(** The double quote character. *)
Definition dq : string := String "034"%char "".

(** [old in s], for a substring [old]. *)
Fixpoint occurs (old s : string) : bool :=
  match s with
  | EmptyString => startswith s old
  | String _ s' => startswith s old || occurs old s'
  end.

(** [s.replace(old, new)] for an [old] that is not empty: the occurrences
    of [old] are taken from left to right and do not overlap.  [skip] counts
    the characters of an occurrence that are still to be passed over. *)
Fixpoint replace_from (old new : string) (skip : nat) (s : string) : string :=
  match s with
  | EmptyString => EmptyString
  | String c s' =>
      match skip with
      | S k => replace_from old new k s'
      | O =>
          if startswith s old
          then new ++ replace_from old new (String.length old - 1) s'
          else String c (replace_from old new 0 s')
      end
  end.

Definition replace (s old new : string) : string := replace_from old new 0 s.

(** The opening of the audio element with its [onended] handler (line 46). *)
Definition audio_onended : string :=
  "<audio onended=" ++ dq ++ "this.parentNode.removeChild(this)" ++ dq.

Definition div_open : string := "<div style=" ++ dq ++ "display:none" ++ dq ++ ">".

(** [_InvisibleAudio._repr_html_] (lines 43 to 48); [super_html] is what
    [Audio._repr_html_] of IPython returns. *)
Definition _repr_html_ (super_html : string) : string :=
  let audio := super_html in
  let audio := replace audio "<audio" audio_onended in
  div_open ++ audio ++ "</div>".

(** A Python exception, by its text. *)
Inductive pyexn : Type := PyExc (what : string).

(** The arguments of [_InvisibleAudio(...)]: [filename=] or [url=], and
    [autoplay=]. *)
Inductive audio_source : Type :=
| AudioFile (filename : string)
| AudioUrl (url : string).

Record InvisibleAudio : Type :=
  mkAudio { audio_from : audio_source; autoplay : bool }.

(** What [parse_argstring] returns: [args.url] and [args.line_code]. *)
Record Args : Type := mkArgs { url : string; line_code : list string }.

Inductive bell_event : Type :=
| ExCalled (code : string)
| Displayed (audio : InvisibleAudio).

Record BellWorld : Type := mkBellWorld {
  (** The class attribute [SOUND_FILE]: [bell.wav] beside the module. *)
  SOUND_FILE : string;
  (** [parse_argstring(self.notify, line)]. *)
  parse_argstring : string -> pyexn + Args;
  (** [self.shell.ex(code)]: it returns [None] or raises. *)
  shell_ex : string -> pyexn + unit;
  (** [Path(p).is_file()]. *)
  is_file : string -> bool;
  (** Building the audio element, which reads the file it is given. *)
  audio_init : InvisibleAudio -> pyexn + unit;
  (** [display(audio)]. *)
  do_display : InvisibleAudio -> pyexn + unit
}.

Definition DEFAULT_URL : string :=
  "https://freewavesamples.com/files/E-Mu-Proteus-FX-CosmoBel-C3.wav".

Definition BellIO (A : Type) : Type := (list bell_event * (pyexn + A))%type.

Definition bell_bind {A B} (m : BellIO A) (k : A -> BellIO B) : BellIO B :=
  match m with
  | (t, inl e) => (t, inl e)
  | (t, inr a) => let (t', r) := k a in (t ++ t', r)%list
  end.

(** [try: body finally: handler]: the handler runs on both ways out of the
    body; an exception of the handler replaces that of the body. *)
Definition try_finally {A} (body : BellIO A) (handler : BellIO unit) : BellIO A :=
  let (t, r) := body in
  match handler with
  | (t', inl e) => (t ++ t', inl e)%list
  | (t', inr _) => (t ++ t', r)%list
  end.

(** The call of [self.shell.ex]; the code may have run in part when it
    raises, so the call is recorded on both outcomes. *)
Definition ex (w : BellWorld) (code : string) : BellIO unit :=
  ([ExCalled code], shell_ex w code).

Definition new_InvisibleAudio (w : BellWorld) (src : audio_source)
    (auto : bool) : BellIO InvisibleAudio :=
  match audio_init w (mkAudio src auto) with
  | inl e => ([], inl e)
  | inr _ => ([], inr (mkAudio src auto))
  end.

Definition display (w : BellWorld) (audio : InvisibleAudio) : BellIO unit :=
  match do_display w audio with
  | inl e => ([], inl e)
  | inr _ => ([Displayed audio], inr tt)
  end.

(** Lines 81 to 88: which sound is played. *)
Definition chosen_audio (w : BellWorld) (maybe_url : string) : audio_source :=
  if maybe_url =? SOUND_FILE w then
    if is_file w (SOUND_FILE w) then AudioFile maybe_url
    else AudioUrl DEFAULT_URL
  else AudioUrl maybe_url.

(** Line 77: [cell if cell else " ".join(args.line_code)]; [None] and the
    empty string are false. *)
Definition notify_code (args : Args) (cell : option string) : string :=
  match cell with
  | Some (String c s) => String c s
  | Some EmptyString => join " " (line_code args)
  | None => join " " (line_code args)
  end.

(** [NotificationMagics.notify] (lines 74 to 91). *)
Definition notify (w : BellWorld) (line : string) (cell : option string)
  : BellIO unit :=
  match parse_argstring w line with
  | inl e => ([], inl e)
  | inr args =>
      let code := notify_code args cell in
      try_finally (ex w code)
        (bell_bind (new_InvisibleAudio w (chosen_audio w (url args)) true)
                   (fun audio => display w audio))
  end.

(** A world with a [bell.wav], in which [line] holds the words of the code
    and the code raises when it is ["1/0"]. *)
Definition bell_world (have_file : bool) : BellWorld :=
  mkBellWorld "/opt/magics/bell.wav"
    (fun line => inr (mkArgs "/opt/magics/bell.wav" [line]))
    (fun code => if code =? "1/0" then inl (PyExc "ZeroDivisionError") else inr tt)
    (fun _ => have_file) (fun _ => inr tt) (fun _ => inr tt).

(** The same world with a front end that cannot show the sound. *)
Definition mute_world : BellWorld :=
  mkBellWorld "/opt/magics/bell.wav"
    (fun line => inr (mkArgs "/opt/magics/bell.wav" [line]))
    (fun code => if code =? "1/0" then inl (PyExc "ZeroDivisionError") else inr tt)
    (fun _ => true) (fun _ => inr tt) (fun _ => inl (PyExc "no front end")).

(** The five ways a run can go: it stops before the temporary file exists,
    at [tmp.write], at [tmp.seek], at [Popen], or not at all. *)
Inductive run_shape (w : World) : IO unit -> Prop :=
| run_no_file (e : exn) : run_shape w ([], Raise e)
| run_write_failed (f name : string) (nb : Notebook) (e : exn) :
    get_notebook_name w = Ok f -> open_json_load w f = Ok nb ->
    run_shape w (failed_write_trace (dirname w f) name, Raise e)
| run_seek_failed (f name : string) (nb : Notebook) (e : exn) :
    get_notebook_name w = Ok f -> open_json_load w f = Ok nb ->
    run_shape w (failed_seek_trace (dirname w f) name
                   (render (included (cells nb))), Raise e)
| run_launch_failed (f name : string) (nb : Notebook) (e : exn) :
    get_notebook_name w = Ok f -> open_json_load w f = Ok nb ->
    run_shape w (failed_launch_trace (dirname w f) name
                   (render (included (cells nb))), Raise e)
| run_launched (f name : string) (nb : Notebook) :
    get_notebook_name w = Ok f -> open_json_load w f = Ok nb ->
    run_shape w (launched_trace (dirname w f) name
                   (render (included (cells nb))), Ok tt).

(** The character [c] occurs in [s]. *)
Fixpoint has_char (c : ascii) (s : string) : bool :=
  match s with
  | EmptyString => false
  | String x s' => Ascii.eqb x c || has_char c s'
  end.

(** What IPython returns for an audio element, in short. *)
Definition ipython_audio_html : string :=
  nl ++ "  <audio controls=" ++ dq ++ "controls" ++ dq ++ " autoplay>" ++ nl
  ++ "    <source src=" ++ dq ++ "bell.wav" ++ dq ++ " />" ++ nl
  ++ "  </audio>" ++ nl.

(** ** Sources as lists of lines, sources as texts *)

(** The source of the cell is a list of strings. *)
Definition is_list_source (c : Cell) : bool :=
  match source c with SrcList _ => true | SrcStr _ => false end.

(** The characters of a text before its first line feed. *)
Fixpoint upto_LF (s : string) : string :=
  match s with
  | EmptyString => EmptyString
  | String c s' => if Ascii.eqb c LF then EmptyString else String c (upto_LF s')
  end.

(** The first source line as a reader of the notebook sees it: the first
    string of a list, the first line of the text of a single string. *)
Definition text_first_line (src : Source) : option string :=
  match src with
  | SrcList l => hd_error l
  | SrcStr EmptyString => None
  | SrcStr s => Some (upto_LF s)
  end.

(** Cells whose source is one string with a directive on its first line. *)
Definition background_string_cell : Cell :=
  string_cell ("%%background" ++ nl ++ "x = 1").

Definition bash_string_cell : Cell := string_cell ("%%bash" ++ nl ++ "ls -l").

Definition background_jobs_string_cell : Cell :=
  string_cell ("%%background_jobs" ++ nl ++ "x = 1").

(** ** Leaving the [with] block

    [with_NamedTemporaryFile] above is the block whose exit succeeds.  The
    exit makes two calls of its own (tempfile.py, [__exit__] and [close],
    as of Python 3.11): it closes the file, which writes what is still in
    the buffer, and then unlinks it.  When the first raises, the second is
    not made and the file stays; when either raises, its exception leaves
    the block in place of the one of the body. *)

Record ExitWorld : Type := mkExitWorld {
  base : World;
  (** [self.file.__exit__(...)]: flush and close. *)
  do_close : string -> result unit;
  (** [unlink(self.name)]. *)
  do_unlink : string -> result unit
}.

(** The exit of the block, after a body that left the trace [t] and the
    outcome [r]. *)
Definition leave_block {A} (x : ExitWorld) (name : string)
    (t : list event) (r : result A) : IO A :=
  match do_close x name with
  | inl e => (t, inl e)
  | inr _ =>
      match do_unlink x name with
      | inl e => (t, inl e)
      | inr _ => ((t ++ [TempDeleted name])%list, r)
      end
  end.

Definition with_NamedTemporaryFile_exit {A} (x : ExitWorld) (d : string)
    (body : string -> IO A) : IO A :=
  match new_temp (base x) d with
  | inl e => ([], inl e)
  | inr name =>
      let (t, r) := body name in
      leave_block x name (TempCreated d name :: t) r
  end.

(** The cell magic with the exit of its [with] block. *)
Definition background_exit (x : ExitWorld) (line cell : string) : IO unit :=
  let w := base x in
  nb_fname <- pure_call (get_notebook_name w) ;;
  nb <- pure_call (open_json_load w nb_fname) ;;
  code <- pure_call (reconstruct (cells nb)) ;;
  with_NamedTemporaryFile_exit x (dirname w nb_fname) (fun tmp =>
    _ <- tmp_write w tmp code ;;
    _ <- tmp_seek w tmp 0 ;;
    _ <- Popen w ["python"; tmp] ;;
    sleep (1 # 2)).

(** The four ways through the body of the block. *)
Inductive body_shape (name code : string) : list event -> result unit -> Prop :=
| body_write_failed (e : exn) : body_shape name code [] (Raise e)
| body_seek_failed (e : exn) :
    body_shape name code [TempWritten name code] (Raise e)
| body_launch_failed (e : exn) :
    body_shape name code [TempWritten name code; TempSeek name 0] (Raise e)
| body_launched :
    body_shape name code
      [TempWritten name code; TempSeek name 0; Spawned ["python"; name];
       Slept (1 # 2)] (Ok tt).

(** A world whose disk is full at [tmp.seek(0)] and still full when the
    file is closed. *)
Definition still_full_world (doc : list Cell) : ExitWorld :=
  mkExitWorld
    (mkWorld (Ok "/home/u/nb.ipynb") (fun _ => Ok (mkNotebook doc))
             (fun _ => "/home/u") (fun _ => Ok "/home/u/tmpk3f9")
             (fun _ _ => Ok tt)
             (fun _ _ => Raise (OSError "No space left on device"))
             (fun _ => Ok tt))
    (fun _ => Raise (OSError "No space left on device"))
    (fun _ => Ok tt).

(** A world in which the new process has removed the temporary file before
    the block is left. *)
Definition file_gone_world (doc : list Cell) : ExitWorld :=
  mkExitWorld (good_world doc) (fun _ => Ok tt) (fun _ => Raise FileNotFoundError).

(** Membership in a list that is written out. *)
Ltac split_in H :=
  repeat (destruct H as [H|H]; [try discriminate H|]); try contradiction.

(** ** Strings *)

Lemma append_empty_r (s : string) : s ++ "" = s.
Proof. induction s as [|c s IH]; simpl; [reflexivity | now rewrite IH]. Qed.

Lemma append_assoc (a b c : string) : (a ++ b) ++ c = a ++ (b ++ c).
Proof. induction a as [|x a IH]; simpl; [reflexivity | now rewrite IH]. Qed.

Lemma join_empty_cons (x : string) (xs : list string) :
  join "" (x :: xs) = x ++ join "" xs.
Proof.
  unfold join. destruct xs as [|y ys]; simpl.
  - now rewrite append_empty_r.
  - reflexivity.
Qed.

Lemma join_empty_app (xs ys : list string) :
  join "" (xs ++ ys)%list = join "" xs ++ join "" ys.
Proof.
  induction xs as [|x xs IH].
  - reflexivity.
  - change ((x :: xs) ++ ys)%list with (x :: (xs ++ ys))%list.
    now rewrite !join_empty_cons, IH, append_assoc.
Qed.

Lemma render_cons (src : Source) (srcs : list Source) :
  render (src :: srcs) = contribution src ++ render srcs.
Proof. unfold render. simpl map. apply join_empty_cons. Qed.

Lemma render_app (xs ys : list Source) :
  render (xs ++ ys)%list = render xs ++ render ys.
Proof. unfold render. rewrite map_app. apply join_empty_app. Qed.

(** ** One iteration of the loop *)

(** The index of line 33 never fails: line 30 has left the cells without
    source aside. *)
Lemma getitem0_truthy (src : Source) :
  truthy src = true -> exists first, getitem0 src = Ok first
                                  /\ hd_error (iter src) = Some first.
Proof.
  destruct src as [[|x l]|[|c s]]; simpl; try discriminate; intros _.
  - exists x. split; reflexivity.
  - exists (String c ""). split; reflexivity.
Qed.

(** [startswith], one character at a time. *)
Lemma startswith_cons (a b : ascii) (p s : string) :
  startswith (String b s) (String a p) = Ascii.eqb a b && startswith s p.
Proof.
  unfold startswith. cbn [prefix].
  destruct (ascii_dec a b) as [->|Hne].
  - now rewrite Ascii.eqb_refl.
  - apply Ascii.eqb_neq in Hne. now rewrite Hne.
Qed.

Lemma startswith_of_empty (a : ascii) (p : string) :
  startswith "" (String a p) = false.
Proof. reflexivity. Qed.

Lemma startswith_empty (s : string) : startswith s "" = true.
Proof. destruct s; reflexivity. Qed.

(** A first line that starts with ["%%background"] starts with ["%%"]. *)
Lemma startswith_background (l : string) :
  startswith l "%%background" = true -> startswith l "%%" = true.
Proof.
  destruct l as [|a [|b l]].
  - discriminate.
  - rewrite startswith_cons, startswith_of_empty, andb_false_r. discriminate.
  - rewrite !startswith_cons, startswith_empty.
    intros H. apply andb_true_iff in H as [-> H].
    apply andb_true_iff in H as [-> _]. reflexivity.
Qed.

Lemma loop_body_skipped (c : Cell) (code : string) (t : bool) :
  has_source c = false -> loop_body c code t = Ok (Continue code t).
Proof.
  unfold has_source, loop_body. intros H.
  rewrite <- negb_andb, H. reflexivity.
Qed.

Lemma loop_body_terminal (c : Cell) (code : string) (t : bool) :
  is_terminal c = true ->
  loop_body c code t
  = Ok (Break (code ++ contribution (slice_from1 (source c))) true).
Proof.
  unfold is_terminal, first_line_startswith, first_line.
  intros H. apply andb_true_iff in H as [Hs Hf].
  unfold loop_body. unfold has_source in Hs.
  rewrite <- negb_andb, Hs. simpl negb. cbv iota.
  apply andb_true_iff in Hs as [_ Ht].
  destruct (getitem0_truthy _ Ht) as (first & -> & Hhd).
  rewrite Hhd in Hf. unfold Ok at 1.
  rewrite (startswith_background _ Hf), Hf. reflexivity.
Qed.

Lemma loop_body_other_magic (c : Cell) (code : string) (t : bool) :
  is_other_magic c = true -> loop_body c code t = Ok (Continue code t).
Proof.
  unfold is_other_magic, first_line_startswith, first_line.
  intros H. apply andb_true_iff in H as [H Hnb].
  apply andb_true_iff in H as [Hs Hf].
  unfold loop_body. unfold has_source in Hs.
  rewrite <- negb_andb, Hs. simpl negb. cbv iota.
  apply andb_true_iff in Hs as [_ Ht].
  destruct (getitem0_truthy _ Ht) as (first & -> & Hhd).
  rewrite Hhd in Hf, Hnb. apply negb_true_iff in Hnb. unfold Ok at 1.
  rewrite Hf, Hnb. reflexivity.
Qed.

Lemma loop_body_eligible (c : Cell) (code : string) :
  eligible c = true ->
  loop_body c code false = Ok (Continue (code ++ contribution (source c)) false).
Proof.
  unfold eligible, first_line_startswith, first_line.
  intros H. apply andb_true_iff in H as [Hs Hf].
  unfold loop_body. unfold has_source in Hs.
  rewrite <- negb_andb, Hs. simpl negb. cbv iota.
  apply andb_true_iff in Hs as [_ Ht].
  destruct (getitem0_truthy _ Ht) as (first & -> & Hhd).
  rewrite Hhd in Hf. apply negb_true_iff in Hf. unfold Ok at 1.
  rewrite Hf. reflexivity.
Qed.

(** The three kinds of cells with source exclude one another and leave
    nothing out. *)
Lemma cell_kinds (c : Cell) :
  has_source c = true ->
  (is_terminal c = true /\ eligible c = false /\ is_other_magic c = false)
  \/ (is_terminal c = false /\ eligible c = true /\ is_other_magic c = false)
  \/ (is_terminal c = false /\ eligible c = false /\ is_other_magic c = true).
Proof.
  unfold is_terminal, eligible, is_other_magic, first_line_startswith.
  intros ->. simpl andb.
  destruct (first_line c) as [l|]; [|right; left; auto].
  destruct (startswith l "%%background") eqn:Hb.
  - rewrite (startswith_background _ Hb). left. auto.
  - destruct (startswith l "%%"); [right; right | right; left]; auto.
Qed.

Lemma no_source_kinds (c : Cell) :
  has_source c = false ->
  is_terminal c = false /\ eligible c = false /\ is_other_magic c = false.
Proof.
  unfold is_terminal, eligible, is_other_magic. intros ->. auto.
Qed.

(** ** The whole loop *)

(** The loop never raises, and what it returns is the accumulated text
    followed by the contributions of the included sources. *)
Lemma loop_included (doc : list Cell) (code : string) :
  loop doc code false = Ok (code ++ render (included doc)).
Proof.
  revert code. induction doc as [|c rest IH]; intros code.
  - simpl. now rewrite append_empty_r.
  - cbn [loop included].
    destruct (has_source c) eqn:Hs.
    + destruct (cell_kinds c Hs) as [(Ht & He & Ho)|[(Ht & He & Ho)|(Ht & He & Ho)]];
        rewrite Ht, ?He.
      * rewrite (loop_body_terminal c code false Ht). cbn [Ok].
        now rewrite render_cons, append_empty_r.
      * rewrite (loop_body_eligible c code He). cbn [Ok].
        now rewrite IH, render_cons, append_assoc.
      * rewrite (loop_body_other_magic c code false Ho). cbn [Ok]. apply IH.
    + destruct (no_source_kinds c Hs) as (-> & -> & _).
      rewrite (loop_body_skipped c code false Hs). cbn [Ok]. apply IH.
Qed.

Lemma reconstruct_included (doc : list Cell) :
  reconstruct doc = Ok (render (included doc)).
Proof. unfold reconstruct. now rewrite loop_included. Qed.

(** ** The accumulated text, cell by cell *)

(** C1, as stated, fails: the lines of a cell are not separated by
    newlines.  The two lines ["x = 1"] and ["y = 2"] of one cell, stored
    without line ends, come out glued together and followed by a single
    newline, where joining them by newlines gives two lines. *)
Lemma C1_newline_separators_fail :
  reconstruct two_line_doc = Ok ("x = 1y = 2" ++ nl)
  /\ spec_render (included two_line_doc) = "x = 1" ++ nl ++ "y = 2" ++ nl
  /\ reconstruct two_line_doc <> Ok (spec_render (included two_line_doc)).
Proof.
  split; [reflexivity|]. split; [reflexivity|].
  vm_compute. intros H. discriminate H.
Qed.

Lemma included_list_sources (doc : list Cell) :
  (forall c, In c doc -> is_list_source c = true) ->
  exists lss : list (list string), included doc = map SrcList lss.
Proof.
  induction doc as [|c doc IH]; intros H.
  - exists []. reflexivity.
  - assert (Hc : exists ls, source c = SrcList ls).
    { specialize (H c (or_introl eq_refl)). unfold is_list_source in H.
      destruct (source c) as [ls|]; [now exists ls | discriminate]. }
    destruct Hc as [ls Hc].
    destruct IH as [lss IH]; [intros c' Hc'; apply H; now right|].
    cbn [included]. destruct (is_terminal c).
    + exists [tl ls]. now rewrite Hc.
    + destruct (eligible c); [|now exists lss].
      exists (ls :: lss). now rewrite Hc, IH.
Qed.

(** C1, amended: for every document whose cells store their source as a
    list of lines, the reconstructed source is, byte for byte, the
    concatenation over the included cells of the cell's filtered source
    lines as they are stored (for the terminal cell, the lines after the
    directive), put one after the other with no separator and followed by
    one newline for the cell. *)
Theorem C1_one_newline_per_cell (doc : list Cell) :
  (forall c, In c doc -> is_list_source c = true) ->
  exists lss : list (list string),
    included doc = map SrcList lss
    /\ reconstruct doc
       = Ok (join "" (map (fun lines => join "" (filter not_line_magic lines) ++ nl)
                          lss)).
Proof.
  intros H. destruct (included_list_sources doc H) as [lss Hlss].
  exists lss. split; [exact Hlss|].
  rewrite reconstruct_included, Hlss. unfold render. now rewrite map_map.
Qed.

Lemma C1_one_newline_per_cell_witness :
  exists lss : list (list string),
    included example_doc = map SrcList lss
    /\ reconstruct example_doc
       = Ok (join "" (map (fun lines => join "" (filter not_line_magic lines) ++ nl)
                          lss)).
Proof.
  apply (C1_one_newline_per_cell example_doc).
  intros c [<-|[<-|[<-|[]]]]; reflexivity.
Defined.

(** C2, as stated, fails: on the example document the reconstructed source
    has two newlines after ["import os"], not three. *)
Lemma C2_three_newlines_fail :
  reconstruct example_doc <> Ok ("import os" ++ nl ++ nl ++ nl).
Proof. vm_compute. intros H. discriminate H. Qed.

(** C2, amended: on the example document the second cell sets [terminate]
    and ends the loop, its directive line is dropped and nothing of it is
    left, the reconstructed source is ["import os\n\n"], and the third cell
    is left out whatever it holds. *)
Theorem C2_example_document :
  loop_body (code_cell ["import os"; ""]) "" false
  = Ok (Continue ("import os" ++ nl) false)
  /\ loop_body (code_cell ["%%background"]) ("import os" ++ nl) false
     = Ok (Break ("import os" ++ nl ++ nl) true)
  /\ slice_from1 (source (code_cell ["%%background"])) = SrcList []
  /\ reconstruct example_doc = Ok ("import os" ++ nl ++ nl)
  /\ forall c3 : Cell,
       reconstruct [code_cell ["import os"; ""]; code_cell ["%%background"]; c3]
       = Ok ("import os" ++ nl ++ nl).
Proof.
  repeat split; try reflexivity.
Qed.

(** ** Which cells are included *)

(** The first line of a cell decides its kind. *)
Lemma is_terminal_intro (c : Cell) (l : string) :
  cell_type c = "code" -> first_line c = Some l ->
  startswith l "%%background" = true -> is_terminal c = true.
Proof.
  unfold is_terminal, has_source, first_line_startswith, first_line.
  intros Hc Hl Hb. rewrite Hl, Hb, Hc, String.eqb_refl.
  destruct (source c) as [[|x xs]|[|a s]]; try discriminate; reflexivity.
Qed.

Lemma is_other_magic_intro (c : Cell) (l : string) :
  cell_type c = "code" -> first_line c = Some l ->
  startswith l "%%" = true -> startswith l "%%background" = false ->
  is_other_magic c = true.
Proof.
  unfold is_other_magic, has_source, first_line_startswith, first_line.
  intros Hc Hl Hm Hb. rewrite Hl, Hm, Hb, Hc, String.eqb_refl.
  destruct (source c) as [[|x xs]|[|a s]]; try discriminate; reflexivity.
Qed.

Lemma other_magic_not_included (c : Cell) :
  is_other_magic c = true -> is_terminal c = false /\ eligible c = false.
Proof.
  intros Ho. destruct (has_source c) eqn:Hs.
  - destruct (cell_kinds c Hs) as [(Ht & He & Ho')|[(Ht & He & Ho')|(Ht & He & Ho')]];
      try congruence. auto.
  - destruct (no_source_kinds c Hs) as (Ht & He & _). auto.
Qed.

(** Before the first terminal cell the loop takes the eligible cells. *)
Lemma included_app (pre rest : list Cell) :
  (forall c, In c pre -> is_terminal c = false) ->
  included (pre ++ rest) = (map source (filter eligible pre) ++ included rest)%list.
Proof.
  induction pre as [|c pre IH]; intros Hpre.
  - reflexivity.
  - cbn [app included filter]. rewrite (Hpre c (or_introl eq_refl)).
    rewrite IH by (intros c' Hc'; apply Hpre; now right).
    destruct (eligible c); reflexivity.
Qed.

(** A cell that is neither terminal nor eligible can be taken out of the
    document. *)
Lemma included_skip (pre post : list Cell) (c : Cell) :
  is_terminal c = false -> eligible c = false ->
  included (pre ++ c :: post) = included (pre ++ post).
Proof.
  intros Ht He. induction pre as [|c' pre IH].
  - cbn [app included]. now rewrite Ht, He.
  - cbn [app included]. now rewrite IH.
Qed.

Lemma startswith_append (p s : string) : startswith (p ++ s) p = true.
Proof.
  induction p as [|a p IH].
  - apply startswith_empty.
  - cbn [append]. now rewrite startswith_cons, Ascii.eqb_refl, IH.
Qed.

(** A string source is never terminal; a list source is terminal by its
    first string. *)
Lemma not_terminal_intro (c : Cell) :
  (forall l others, cell_type c = "code" -> source c = SrcList (l :: others) ->
     startswith l "%%background" = false) ->
  is_terminal c = false.
Proof.
  intros H. unfold is_terminal, has_source, first_line_startswith, first_line.
  destruct (cell_type c =? "code") eqn:Hc; [|reflexivity].
  apply String.eqb_eq in Hc.
  destruct (source c) as [[|l others]|[|a s]] eqn:Hs; try reflexivity.
  - cbn [truthy iter hd_error andb]. now apply (H l others).
  - cbn [truthy iter chars hd_error andb].
    now rewrite startswith_cons, startswith_of_empty, andb_false_r.
Qed.

(** C4, as stated, fails on a source given as one string: the code cell
    whose text is ["%%background"] on its first line and ["x = 1"] on the
    second does not end the loop; its directive stays, without its ['%'],
    and the cell after it is included. *)
Lemma C4_string_source_not_terminal :
  cell_type background_string_cell = "code"
  /\ text_first_line (source background_string_cell) = Some "%%background"
  /\ reconstruct [background_string_cell; code_cell ["y = 2"]]
     = Ok ("background" ++ nl ++ "x = 1" ++ nl ++ "y = 2" ++ nl)
  /\ reconstruct [background_string_cell; code_cell ["y = 2"]]
     <> reconstruct [background_string_cell].
Proof.
  split; [reflexivity|]. split; [reflexivity|]. split; [reflexivity|].
  vm_compute. intros H. discriminate H.
Qed.

(** C4, amended: when cell [ck] is the first code cell whose source is a
    list of strings the first of which starts with ["%%background"], the
    reconstructed source is made of the eligible cells before it, in order,
    followed by [ck] without its first line (its other lines are kept, line
    magics apart); the cells after [ck] take no part in it. *)
Theorem C4_stops_after_terminal_cell
    (pre post : list Cell) (ck : Cell) (l : string) (others : list string) :
  (forall c, In c pre ->
     forall l' others', cell_type c = "code" ->
       source c = SrcList (l' :: others') ->
       startswith l' "%%background" = false) ->
  cell_type ck = "code" ->
  source ck = SrcList (l :: others) ->
  startswith l "%%background" = true ->
  reconstruct (pre ++ ck :: post)
  = Ok (render (map source (filter eligible pre))
        ++ (join "" (filter not_line_magic others) ++ nl))
  /\ reconstruct (pre ++ ck :: post) = reconstruct (pre ++ [ck]).
Proof.
  intros Hfirst Hc Hs Hb.
  assert (Hpre : forall c, In c pre -> is_terminal c = false).
  { intros c Hin. apply not_terminal_intro. now apply Hfirst. }
  assert (Ht : is_terminal ck = true).
  { apply (is_terminal_intro ck l Hc); [|exact Hb].
    unfold first_line. now rewrite Hs. }
  assert (Hk : forall tail, included (pre ++ ck :: tail)
               = (map source (filter eligible pre) ++ [SrcList others])%list).
  { intros tail. rewrite included_app by exact Hpre. cbn [included].
    now rewrite Ht, Hs. }
  split.
  - rewrite reconstruct_included, Hk, render_app, render_cons.
    unfold contribution, kept_lines. cbn [iter].
    change (render []) with "". now rewrite append_empty_r.
  - now rewrite !reconstruct_included, !Hk.
Qed.

Lemma C4_stops_after_terminal_cell_witness :
  reconstruct (leading_cells ++ code_cell ["%%background"; "%time"; "x = 1"]
                         :: [code_cell ["y = 2"]])
  = Ok ("import os" ++ nl ++ "x = 1" ++ nl).
Proof.
  refine (eq_trans
    (proj1 (C4_stops_after_terminal_cell leading_cells [code_cell ["y = 2"]]
              (code_cell ["%%background"; "%time"; "x = 1"]) "%%background"
              ["%time"; "x = 1"] _ eq_refl eq_refl eq_refl)) eq_refl).
  intros c [<-|[<-|[<-|[]]]] l' others' Hc Hs;
    try discriminate Hc; inversion Hs; reflexivity.
Defined.

(** C6, as stated, fails on a source given as one string: the code cell
    whose text starts with the line ["%%bash"] is not left out; it adds its
    text without the characters ['%']. *)
Lemma C6_string_cell_magic_included :
  cell_type bash_string_cell = "code"
  /\ text_first_line (source bash_string_cell) = Some "%%bash"
  /\ reconstruct [bash_string_cell] = Ok ("bash" ++ nl ++ "ls -l" ++ nl)
  /\ reconstruct ([] ++ bash_string_cell :: []) <> reconstruct ([] ++ []).
Proof.
  split; [reflexivity|]. split; [reflexivity|]. split; [reflexivity|].
  vm_compute. intros H. discriminate H.
Qed.

(** C6, amended: a code cell whose source is a list of strings the first of
    which starts with ["%%"] but not with ["%%background"] adds nothing to
    the reconstructed source, and the loop goes on with the cells after it:
    the result is that of the document without this cell. *)
Theorem C6_other_cell_magic_skipped
    (pre post : list Cell) (c : Cell) (l : string) (others : list string) :
  cell_type c = "code" ->
  source c = SrcList (l :: others) ->
  startswith l "%%" = true ->
  startswith l "%%background" = false ->
  (forall code t, loop_body c code t = Ok (Continue code t))
  /\ reconstruct (pre ++ c :: post) = reconstruct (pre ++ post).
Proof.
  intros Hc Hs Hm Hb.
  assert (Hl : first_line c = Some l) by (unfold first_line; now rewrite Hs).
  pose proof (is_other_magic_intro c l Hc Hl Hm Hb) as Ho.
  destruct (other_magic_not_included c Ho) as [Ht He].
  split.
  - intros code t. now apply loop_body_other_magic.
  - now rewrite !reconstruct_included, included_skip.
Qed.

Lemma C6_other_cell_magic_skipped_witness :
  reconstruct ([code_cell ["a = 1"]] ++ code_cell ["%%bash"; "ls"]
                 :: [code_cell ["b = 2"]])
  = Ok ("a = 1" ++ nl ++ "b = 2" ++ nl).
Proof.
  exact (eq_trans
    (proj2 (C6_other_cell_magic_skipped [code_cell ["a = 1"]]
              [code_cell ["b = 2"]] (code_cell ["%%bash"; "ls"]) "%%bash" ["ls"]
              eq_refl eq_refl eq_refl eq_refl)) eq_refl).
Defined.

(** ** The run as a whole *)

Lemma background_unread (w : World) (line cell f : string) (e : exn) :
  get_notebook_name w = Ok f ->
  open_json_load w f = Raise e ->
  background w line cell = ([], Raise e).
Proof.
  intros Hf Hr. unfold Ok, Raise in *.
  unfold background, bind, pure_call. rewrite Hf. cbv beta iota.
  now rewrite Hr.
Qed.

Lemma background_launch (w : World) (line cell f name : string) (nb : Notebook) :
  get_notebook_name w = Ok f ->
  open_json_load w f = Ok nb ->
  new_temp w (dirname w f) = Ok name ->
  do_write w name (render (included (cells nb))) = Ok tt ->
  do_seek w name 0 = Ok tt ->
  background w line cell
  = match do_popen w ["python"; name] with
    | inl e =>
        (failed_launch_trace (dirname w f) name (render (included (cells nb))),
         Raise e)
    | inr _ =>
        (launched_trace (dirname w f) name (render (included (cells nb))),
         Ok tt)
    end.
Proof.
  intros Hf Hr Ht Hw Hs.
  pose proof (reconstruct_included (cells nb)) as Hc.
  unfold Ok, Raise in *.
  unfold background, bind, pure_call, with_NamedTemporaryFile.
  rewrite Hf. cbv beta iota. rewrite Hr. cbv beta iota.
  rewrite Hc. cbv beta iota. rewrite Ht.
  unfold tmp_write, tmp_seek, Popen, effect_call. rewrite Hw, Hs.
  destruct (do_popen w ["python"; name]) as [e|[]]; reflexivity.
Qed.

(** C7: when the notebook file cannot be opened or parsed, the run ends
    with the exception of the read and its trace is empty: no temporary
    file has been created and no process started. *)
Theorem C7_unreadable_document_no_effect
    (w : World) (line cell f : string) (e : exn) :
  get_notebook_name w = Ok f ->
  open_json_load w f = Raise e ->
  background w line cell = ([], Raise e).
Proof. apply background_unread. Qed.

Lemma C7_unreadable_document_no_effect_witness :
  background missing_file_world "" "x = 1" = ([], Raise FileNotFoundError).
Proof.
  exact (C7_unreadable_document_no_effect missing_file_world "" "x = 1"
           "/home/u/nb.ipynb" FileNotFoundError eq_refl eq_refl).
Defined.



(** C9: when no code cell has a first source line that starts with
    ["%%background"], the loop does not raise and runs to the end of the
    document: the reconstructed source holds every eligible cell, and a run
    in which the world answers every call hands exactly that text to the
    new process. *)
Theorem C9_without_directive_whole_notebook (doc : list Cell) :
  (forall c, In c doc -> is_terminal c = false) ->
  reconstruct doc = Ok (render (map source (filter eligible doc)))
  /\ forall (w : World) (line cell f name : string),
       get_notebook_name w = Ok f ->
       open_json_load w f = Ok (mkNotebook doc) ->
       new_temp w (dirname w f) = Ok name ->
       do_write w name (render (map source (filter eligible doc))) = Ok tt ->
       do_seek w name 0 = Ok tt ->
       do_popen w ["python"; name] = Ok tt ->
       background w line cell
       = (launched_trace (dirname w f) name
            (render (map source (filter eligible doc))), Ok tt).
Proof.
  intros Hdoc.
  assert (Hinc : included doc = map source (filter eligible doc)).
  { rewrite <- (app_nil_r doc) at 1. rewrite included_app by exact Hdoc.
    apply app_nil_r. }
  split.
  - now rewrite reconstruct_included, Hinc.
  - intros w line cell f name Hf Hr Ht Hw Hs Hp.
    rewrite (background_launch w line cell f name (mkNotebook doc) Hf Hr Ht);
      cbn [cells]; rewrite ?Hinc; try assumption.
    unfold Ok in Hp. now rewrite Hp.
Qed.

Lemma C9_without_directive_whole_notebook_witness :
  reconstruct plain_doc = Ok ("a = 1" ++ nl ++ "b = 2" ++ nl)
  /\ background (good_world plain_doc) "" ""
     = (launched_trace "/home/u" "/home/u/tmpk3f9" ("a = 1" ++ nl ++ "b = 2" ++ nl),
        Ok tt).
Proof.
  assert (H : forall c, In c plain_doc -> is_terminal c = false).
  { intros c [<-|[<-|[<-|[<-|[<-|[]]]]]]; reflexivity. }
  split.
  - exact (proj1 (C9_without_directive_whole_notebook plain_doc H)).
  - exact (proj2 (C9_without_directive_whole_notebook plain_doc H)
             (good_world plain_doc) "" "" "/home/u/nb.ipynb" "/home/u/tmpk3f9"
             eq_refl eq_refl eq_refl eq_refl eq_refl eq_refl).
Defined.

(** C10, as stated, fails on a source given as one string: the code cell
    whose text starts with the line ["%%background_jobs"] does not end the
    loop and keeps that line, without its ['%']. *)
Lemma C10_string_source_prefix_not_terminal :
  cell_type background_jobs_string_cell = "code"
  /\ text_first_line (source background_jobs_string_cell)
     = Some "%%background_jobs"
  /\ loop_body background_jobs_string_cell "" false
     = Ok (Continue ("background_jobs" ++ nl ++ "x = 1" ++ nl) false)
  /\ reconstruct [background_jobs_string_cell; code_cell ["y = 2"]]
     = Ok ("background_jobs" ++ nl ++ "x = 1" ++ nl ++ "y = 2" ++ nl).
Proof. repeat split; reflexivity. Qed.

(** C10, amended: the test for the directive is a prefix test.  A code cell
    whose source is a list of strings the first of which is
    ["%%background"] followed by any characters at all sets [terminate] and
    ends the loop: its first line is dropped, its other lines are added,
    and no later cell is read. *)
Theorem C10_directive_test_is_prefix
    (pre post : list Cell) (suffix : string) (others : list string) :
  (forall c, In c pre -> is_terminal c = false) ->
  let ck := code_cell (("%%background" ++ suffix) :: others) in
  (forall code t,
     loop_body ck code t
     = Ok (Break (code ++ (join "" (filter not_line_magic others) ++ nl)) true))
  /\ reconstruct (pre ++ ck :: post)
     = Ok (render (map source (filter eligible pre))
           ++ (join "" (filter not_line_magic others) ++ nl)).
Proof.
  intros Hpre ck.
  assert (Ht : is_terminal ck = true).
  { apply (is_terminal_intro ck ("%%background" ++ suffix));
      [reflexivity | reflexivity | apply startswith_append]. }
  split.
  - intros code t. now rewrite (loop_body_terminal ck code t Ht).
  - rewrite reconstruct_included, included_app by exact Hpre.
    cbn [included]. rewrite Ht, render_app, render_cons.
    change (render []) with "". now rewrite append_empty_r.
Qed.

Lemma C10_directive_test_is_prefix_witness :
  reconstruct ([code_cell ["import os"]]
                 ++ code_cell ["%%background_jobs --n 3"; "x = 1"]
                 :: [code_cell ["y = 2"]])
  = Ok ("import os" ++ nl ++ "x = 1" ++ nl).
Proof.
  refine (eq_trans
    (proj2 (C10_directive_test_is_prefix [code_cell ["import os"]]
              [code_cell ["y = 2"]] "_jobs --n 3" ["x = 1"] _)) eq_refl).
  intros c [<-|[]]; reflexivity.
Defined.

(** ** A source given as one string *)







(** A character is never a cell-level directive: a source given as one
    string is eligible as soon as it is not empty. *)
Lemma string_cell_eligible (s : string) :
  s <> "" ->
  is_terminal (string_cell s) = false /\ eligible (string_cell s) = true.
Proof.
  destruct s as [|c s]; [congruence|]. intros _.
  unfold is_terminal, eligible, has_source, first_line_startswith, first_line.
  cbn [string_cell cell_type source truthy iter chars hd_error].
  rewrite !startswith_cons, startswith_of_empty, !andb_false_r. auto.
Qed.






(** ** Lines of the reconstructed source *)

Lemma split_lines_cons (s : string) :
  exists l ls, split_lines s = l :: ls /\ startswith l "%" = startswith s "%".
Proof.
  destruct s as [|c s].
  - exists "", []. split; reflexivity.
  - cbn [split_lines]. destruct (Ascii.eqb c LF) eqn:Hc.
    + exists "", (split_lines s). split; [reflexivity|].
      apply Ascii.eqb_eq in Hc. subst c. reflexivity.
    + destruct (split_lines s) as [|l ls].
      * exists (String c ""), []. split; [reflexivity|].
        now rewrite !startswith_cons, !startswith_empty.
      * exists (String c l), ls. split; [reflexivity|].
        now rewrite !startswith_cons, !startswith_empty.
Qed.

(** The first line decides for the start of the text, the other lines are
    looked at on their own. *)
Lemma no_magic_line_iff (s : string) :
  no_magic_line s
  <-> startswith s "%" = false
      /\ Forall (fun l => startswith l "%" = false) (tl (split_lines s)).
Proof.
  unfold no_magic_line.
  destruct (split_lines_cons s) as (l & ls & -> & <-). cbn [tl]. split.
  - intros H. inversion H; subst. auto.
  - intros [H1 H2]. now constructor.
Qed.

Lemma later_lines_append (p t : string) :
  single_line p = true -> no_magic_line t ->
  Forall (fun l => startswith l "%" = false) (tl (split_lines (p ++ t))).
Proof.
  intros Hp Ht. induction p as [|c p IH].
  - apply no_magic_line_iff in Ht. apply Ht.
  - cbn [append split_lines]. cbn [single_line] in Hp.
    destruct (Ascii.eqb c LF).
    + apply String.eqb_eq in Hp. subst p. exact Ht.
    + specialize (IH Hp).
      destruct (split_lines (p ++ t)) as [|l ls]; [constructor | exact IH].
Qed.

(** A line that is no line magic can be put in front of a text. *)
Lemma no_magic_line_append (p t : string) :
  single_line p = true -> startswith p "%" = false -> no_magic_line t ->
  no_magic_line (p ++ t).
Proof.
  intros Hp Hm Ht. apply no_magic_line_iff. split.
  - destruct p as [|c p].
    + apply no_magic_line_iff in Ht. apply Ht.
    + cbn [append]. rewrite startswith_cons, startswith_empty in *. exact Hm.
  - now apply later_lines_append.
Qed.

Lemma no_magic_line_join (ps : list string) (t : string) :
  (forall p, In p ps -> single_line p = true /\ startswith p "%" = false) ->
  no_magic_line t -> no_magic_line (join "" ps ++ t).
Proof.
  induction ps as [|p ps IH]; intros Hps Ht.
  - exact Ht.
  - rewrite join_empty_cons, append_assoc.
    destruct (Hps p (or_introl eq_refl)) as [H1 H2].
    apply no_magic_line_append; try assumption.
    apply IH; [|exact Ht]. intros q Hq. apply Hps. now right.
Qed.

Lemma no_magic_line_render (srcs : list Source) :
  (forall src, In src srcs -> forall l, In l (iter src) -> single_line l = true) ->
  no_magic_line (render srcs).
Proof.
  induction srcs as [|src srcs IH]; intros H.
  - repeat constructor.
  - rewrite render_cons. unfold contribution. rewrite append_assoc.
    apply no_magic_line_join.
    + intros p Hp. unfold kept_lines in Hp. apply filter_In in Hp as [Hin Hk].
      split; [apply (H src (or_introl eq_refl) p Hin)|].
      unfold not_line_magic in Hk. now apply negb_true_iff in Hk.
    + apply (no_magic_line_append nl); [reflexivity | reflexivity |].
      apply IH. intros s Hs. apply H. now right.
Qed.

Lemma iter_slice_from1 (src : Source) (l : string) :
  In l (iter (slice_from1 src)) -> In l (iter src).
Proof.
  destruct src as [[|x xs]|[|c s]]; cbn; auto.
Qed.

Lemma included_from_doc (doc : list Cell) (src : Source) :
  In src (included doc) ->
  exists c, In c doc /\ (src = source c \/ src = slice_from1 (source c)).
Proof.
  induction doc as [|c doc IH]; cbn [included]; [intros []|].
  destruct (is_terminal c).
  - intros [<-|[]]. exists c. split; [now left | now right].
  - destruct (eligible c).
    + intros [<-|H].
      * exists c. split; [now left | now left].
      * destruct (IH H) as (c' & Hc' & Hs). exists c'. split; [now right | exact Hs].
    + intros H. destruct (IH H) as (c' & Hc' & Hs).
      exists c'. split; [now right | exact Hs].
Qed.

(** A cell can be exchanged for one of the same kind that adds the same
    text, as a whole and without its first line. *)
Lemma render_included_same_kind (pre post : list Cell) (c1 c2 : Cell) :
  is_terminal c1 = is_terminal c2 -> eligible c1 = eligible c2 ->
  contribution (source c1) = contribution (source c2) ->
  contribution (slice_from1 (source c1)) = contribution (slice_from1 (source c2)) ->
  render (included (pre ++ c1 :: post)) = render (included (pre ++ c2 :: post)).
Proof.
  intros Ht He Hc Hs. induction pre as [|c pre IH].
  - cbn [app included]. rewrite <- Ht, <- He.
    destruct (is_terminal c1); [now rewrite !render_cons, Hs|].
    destruct (eligible c1); [|reflexivity]. now rewrite !render_cons, Hc.
  - cbn [app included]. destruct (is_terminal c); [reflexivity|].
    destruct (eligible c); [|exact IH]. now rewrite !render_cons, IH.
Qed.

Lemma kept_lines_without_magic (a b : list string) (m : string) :
  startswith m "%" = true ->
  filter not_line_magic (a ++ m :: b) = filter not_line_magic (a ++ b).
Proof.
  intros Hm. rewrite !filter_app. cbn [filter]. unfold not_line_magic at 2.
  now rewrite Hm.
Qed.

(** C5, as stated, fails.  A source entry that holds two lines is kept or
    dropped as a whole, by its first character, so its second line
    ["%time f(x)"] reaches the reconstructed source; and in a source given
    as one string the line ["%time f(x)"] is not removed, it only loses its
    ['%']. *)
Lemma C5_magic_line_survives :
  reconstruct two_lines_in_entry_doc = Ok ("x = 1" ++ nl ++ "%time f(x)" ++ nl)
  /\ ~ no_magic_line ("x = 1" ++ nl ++ "%time f(x)" ++ nl)
  /\ reconstruct [string_cell ("x = 1" ++ nl ++ "%time f(x)")]
     = Ok ("x = 1" ++ nl ++ "time f(x)" ++ nl).
Proof.
  split; [reflexivity|]. split; [|reflexivity].
  intros H. apply no_magic_line_iff in H as [_ H].
  vm_compute in H. inversion H as [|? ? Hhd _]. discriminate Hhd.
Qed.

(** C5, amended: in a document whose source entries are single lines (a
    line feed can only be the last character of an entry), the
    reconstructed source has no line that starts with ['%'].  In a cell
    whose source is a list of strings, an entry that starts with ['%'] is
    removed whole wherever it stands: the cell adds what it adds without
    that entry, and for an entry after the first the reconstructed source
    is that of the document without the entry.  The first line of the
    terminal cell, the directive itself, is not among the entries read. *)
Theorem C5_no_magic_line_in_output (doc : list Cell) :
  line_sources doc ->
  (exists out, reconstruct doc = Ok out /\ no_magic_line out)
  /\ (forall a m b, startswith m "%" = true ->
        contribution (SrcList (a ++ m :: b)) = contribution (SrcList (a ++ b)))
  /\ (forall pre post a m b,
        doc = (pre ++ code_cell (a ++ m :: b) :: post)%list ->
        a <> [] -> startswith m "%" = true ->
        reconstruct doc = reconstruct (pre ++ code_cell (a ++ b) :: post))
  /\ (forall pre ck post, doc = (pre ++ ck :: post)%list ->
      (forall c, In c pre -> is_terminal c = false) -> is_terminal ck = true ->
      included doc
      = (map source (filter eligible pre) ++ [slice_from1 (source ck)])%list).
Proof.
  intros Hdoc. split; [|split; [|split]].
  - exists (render (included doc)). split; [apply reconstruct_included|].
    apply no_magic_line_render. intros src Hsrc l Hl.
    destruct (included_from_doc doc src Hsrc) as (c & Hc & [->| ->]).
    + now apply (Hdoc c Hc).
    + apply (Hdoc c Hc). now apply iter_slice_from1.
  - intros a m b Hm. unfold contribution, kept_lines. cbn [iter].
    now rewrite (kept_lines_without_magic a b m Hm).
  - intros pre post a m b -> Ha Hm. rewrite !reconstruct_included. f_equal.
    destruct a as [|x a]; [congruence|].
    apply render_included_same_kind; try reflexivity;
      unfold contribution, kept_lines;
      cbn [code_cell source slice_from1 iter tl app].
    + change (x :: a ++ m :: b)%list with ((x :: a) ++ m :: b)%list.
      change (x :: a ++ b)%list with ((x :: a) ++ b)%list.
      now rewrite (kept_lines_without_magic _ _ m Hm).
    + now rewrite (kept_lines_without_magic a b m Hm).
  - intros pre ck post -> Hpre Ht.
    rewrite included_app by exact Hpre. cbn [included]. now rewrite Ht.
Qed.

Lemma C5_no_magic_line_in_output_witness :
  exists out, reconstruct magic_doc = Ok out /\ no_magic_line out.
Proof.
  refine (proj1 (C5_no_magic_line_in_output magic_doc _)).
  intros c [<-|[<-|[<-|[]]]] l Hl; cbn in Hl;
    repeat (destruct Hl as [<-|Hl]; [reflexivity|]); destruct Hl.
Defined.

(** ** Every run of [background] *)

Lemma background_shape (w : World) (line cell : string) :
  run_shape w (background w line cell).
Proof.
  unfold background, bind, pure_call.
  destruct (get_notebook_name w) as [e|f] eqn:Hf; [apply run_no_file|].
  destruct (open_json_load w f) as [e|nb] eqn:Hr; [apply run_no_file|].
  rewrite reconstruct_included. unfold Ok at 1. cbv beta iota.
  unfold with_NamedTemporaryFile.
  destruct (new_temp w (dirname w f)) as [e|name]; [apply run_no_file|].
  unfold tmp_write, tmp_seek, Popen, effect_call, sleep.
  destruct (do_write w name (render (included (cells nb)))) as [e|[]];
    [now apply (run_write_failed w f name nb e)|].
  destruct (do_seek w name 0) as [e|[]];
    [now apply (run_seek_failed w f name nb e)|].
  destruct (do_popen w ["python"; name]) as [e|[]].
  - now apply (run_launch_failed w f name nb e).
  - now apply (run_launched w f name nb).
Qed.

(** X2: a process is started only on the reconstructed source.  When the
    trace of a run holds a [Popen], it is the only one, its command is
    [python] on the temporary file, and the events before it are the
    creation of that file beside the notebook, the writing of the source
    reconstructed from the notebook that was read, and the [seek]. *)
Theorem background_spawns_only_written_code
    (w : World) (line cell : string) (argv : list string) :
  In (Spawned argv) (fst (background w line cell)) ->
  exists f nb name code,
    get_notebook_name w = Ok f
    /\ open_json_load w f = Ok nb
    /\ reconstruct (cells nb) = Ok code
    /\ argv = ["python"; name]
    /\ firstn 4 (fst (background w line cell))
       = [TempCreated (dirname w f) name; TempWritten name code;
          TempSeek name 0; Spawned argv]
    /\ List.length (filter is_Spawned (fst (background w line cell))) = 1%nat.
Proof.
  destruct (background_shape w line cell) as [e|f name nb e Hf Hr|f name nb e Hf Hr
                                             |f name nb e Hf Hr|f name nb Hf Hr];
    cbn; intros Hin;
    repeat (destruct Hin as [Hin|Hin]; [try discriminate Hin|]);
    try contradiction.
  inversion Hin; subst argv.
  exists f, nb, name, (render (included (cells nb))).
  repeat split; try assumption. apply reconstruct_included.
Qed.

Lemma background_spawns_only_written_code_witness :
  exists f nb name code,
    get_notebook_name (good_world example_doc) = Ok f
    /\ open_json_load (good_world example_doc) f = Ok nb
    /\ reconstruct (cells nb) = Ok code
    /\ ["python"; "/home/u/tmpk3f9"] = ["python"; name]
    /\ firstn 4 (fst (background (good_world example_doc) "" ""))
       = [TempCreated (dirname (good_world example_doc) f) name;
          TempWritten name code; TempSeek name 0;
          Spawned ["python"; "/home/u/tmpk3f9"]]
    /\ List.length
         (filter is_Spawned (fst (background (good_world example_doc) "" "")))
       = 1%nat.
Proof.
  apply (background_spawns_only_written_code (good_world example_doc) "" ""
           ["python"; "/home/u/tmpk3f9"]).
  cbn. right. right. right. left. reflexivity.
Defined.

(** ** More on the loop *)

Lemma contribution_not_empty (src : Source) : contribution src <> "".
Proof.
  unfold contribution. destruct (join "" (kept_lines src)); discriminate.
Qed.

Lemma render_empty (srcs : list Source) : render srcs = "" -> srcs = [].
Proof.
  destruct srcs as [|src srcs]; [reflexivity|].
  rewrite render_cons. intros H.
  destruct (contribution src) eqn:Hc; [|discriminate H].
  now destruct (contribution_not_empty src).
Qed.

Lemma included_empty (doc : list Cell) :
  included doc = []
  <-> forall c, In c doc -> is_terminal c = false /\ eligible c = false.
Proof.
  induction doc as [|c doc IH]; cbn [included].
  - split; [intros _ c []|reflexivity].
  - destruct (is_terminal c) eqn:Ht.
    + split; [discriminate|]. intros H.
      destruct (H c (or_introl eq_refl)) as [H' _]. congruence.
    + destruct (eligible c) eqn:He.
      * split; [discriminate|]. intros H.
        destruct (H c (or_introl eq_refl)) as [_ H']. congruence.
      * rewrite IH. split.
        -- intros H c' [<-|Hc']; auto.
        -- intros H c' Hc'. apply H. now right.
Qed.

(** X4: the reconstructed source is empty exactly when the document has
    neither an eligible cell nor a terminal one; so it is for a document
    made of markdown cells, of other cells that are not code, and of code
    cells whose source is empty. *)
Theorem reconstruct_empty_iff (doc : list Cell) :
  (reconstruct doc = Ok ""
   <-> forall c, In c doc -> is_terminal c = false /\ eligible c = false)
  /\ ((forall c, In c doc -> cell_type c <> "code" \/ truthy (source c) = false) ->
      reconstruct doc = Ok "").
Proof.
  assert (Hiff : reconstruct doc = Ok ""
                 <-> forall c, In c doc -> is_terminal c = false /\ eligible c = false).
  { rewrite reconstruct_included, <- included_empty. split.
    - intros H. apply render_empty. now inversion H.
    - now intros ->. }
  split; [exact Hiff|].
  intros H. apply Hiff. intros c Hc.
  assert (Hs : has_source c = false).
  { unfold has_source. destruct (H c Hc) as [Hn| ->]; [|apply andb_false_r].
    apply String.eqb_neq in Hn. now rewrite Hn. }
  destruct (no_source_kinds c Hs) as (Ht & He & _). auto.
Qed.

Lemma reconstruct_empty_iff_witness :
  reconstruct [mkCell "markdown" (SrcList ["# title"; "%%background"]);
               mkCell "raw" (SrcStr "x = 1"); code_cell []; string_cell ""]
  = Ok "".
Proof.
  apply (proj2 (reconstruct_empty_iff _)).
  intros c [<-|[<-|[<-|[<-|[]]]]];
    try (left; discriminate); right; reflexivity.
Defined.

(** X5: the loop goes through two documents put end to end one after the
    other: when the first holds no terminal cell, the source reconstructed
    from both is the source of the first followed by the source of the
    second. *)
Theorem reconstruct_app (doc1 doc2 : list Cell) :
  (forall c, In c doc1 -> is_terminal c = false) ->
  exists out1 out2,
    reconstruct doc1 = Ok out1 /\ reconstruct doc2 = Ok out2
    /\ reconstruct (doc1 ++ doc2) = Ok (out1 ++ out2).
Proof.
  intros H. exists (render (included doc1)), (render (included doc2)).
  rewrite !reconstruct_included. repeat split.
  rewrite (included_app doc1 doc2 H), render_app. do 2 f_equal.
  rewrite <- (app_nil_r doc1) at 2. rewrite (included_app doc1 [] H).
  now rewrite app_nil_r.
Qed.

Lemma reconstruct_app_witness :
  exists out1 out2,
    reconstruct plain_doc = Ok out1 /\ reconstruct example_doc = Ok out2
    /\ reconstruct (plain_doc ++ example_doc) = Ok (out1 ++ out2).
Proof.
  apply (reconstruct_app plain_doc example_doc).
  intros c [<-|[<-|[<-|[<-|[<-|[]]]]]]; reflexivity.
Defined.

(** X6: the index [cell["source"][0]] of line 33 raises on the empty list
    and on the empty string and on nothing else, and the test of line 30
    keeps both away from it: one turn of the loop never raises, in whatever
    state it starts, and the loop returns a text for every document. *)
Theorem loop_never_raises :
  (forall src, getitem0 src = Raise IndexError <-> truthy src = false)
  /\ (forall cell code terminate,
        exists next, loop_body cell code terminate = Ok next)
  /\ (forall doc code terminate, exists out, loop doc code terminate = Ok out).
Proof.
  assert (Hbody : forall cell code terminate,
             exists next, loop_body cell code terminate = Ok next).
  { intros cell code terminate. unfold loop_body.
    destruct (negb (cell_type cell =? "code") || negb (truthy (source cell)))
      eqn:Hskip; [eexists; reflexivity|].
    apply orb_false_iff in Hskip as [_ Ht]. apply negb_false_iff in Ht.
    destruct (getitem0_truthy _ Ht) as (first & -> & _). unfold Ok at 1.
    destruct (startswith first "%%");
      [destruct (startswith first "%%background")|];
      cbv beta iota zeta; try destruct terminate; eexists; reflexivity. }
  split; [|split; [exact Hbody|]].
  - intros [[|x l]|[|c s]]; cbn; split; intros H; try reflexivity; discriminate H.
  - intros doc. induction doc as [|c doc IH]; intros code terminate.
    + eexists; reflexivity.
    + cbn [loop]. destruct (Hbody c code terminate) as [[code' t'|code' t'] ->].
      * apply IH.
      * eexists; reflexivity.
Qed.

(** X7: every included cell ends its part with a newline, so a reconstructed
    source that is not empty ends with a newline: the last statement of the
    last cell is a complete line for the interpreter. *)
Theorem reconstruct_ends_with_newline (doc : list Cell) :
  exists out, reconstruct doc = Ok out
              /\ (out = "" \/ exists body, out = body ++ nl).
Proof.
  exists (render (included doc)). split; [apply reconstruct_included|].
  induction (included doc) as [|src srcs IH]; [now left|]. right.
  rewrite render_cons. destruct IH as [->|[body ->]].
  - rewrite append_empty_r. eexists. reflexivity.
  - exists (contribution src ++ body). now rewrite append_assoc.
Qed.

Lemma kept_chars (s : string) :
  join "" (filter not_line_magic (chars s)) = remove_percent s.
Proof.
  induction s as [|c s IH]; [reflexivity|].
  cbn [chars filter remove_percent]. unfold not_line_magic at 1.
  rewrite startswith_cons, startswith_empty, andb_true_r, Ascii.eqb_sym.
  destruct (Ascii.eqb c "%"); cbn [negb]; [exact IH|].
  now rewrite join_empty_cons, IH.
Qed.

(** X8: a source given as one string is read character by character.  If
    it is not empty, the cell is taken as an eligible cell whatever its
    text, even a text that starts with ["%%background"] or ["%%bash"]: the
    loop goes on after it, and the cell adds its text without any of its
    characters ['%']. *)
Theorem string_source_loses_every_percent
    (pre post : list Cell) (s : string) :
  s <> "" ->
  (forall c, In c pre -> is_terminal c = false) ->
  exists before after,
    reconstruct pre = Ok before /\ reconstruct post = Ok after
    /\ reconstruct (pre ++ string_cell s :: post)
       = Ok (before ++ (remove_percent s ++ nl) ++ after).
Proof.
  intros Hs Hpre. destruct (string_cell_eligible s Hs) as [Ht He].
  exists (render (included pre)), (render (included post)).
  rewrite !reconstruct_included. repeat split.
  rewrite (included_app pre _ Hpre). cbn [included]. rewrite Ht, He.
  rewrite render_app, render_cons. do 2 f_equal.
  - rewrite <- (app_nil_r pre) at 2. rewrite (included_app pre [] Hpre).
    now rewrite app_nil_r.
  - f_equal. unfold contribution, kept_lines. cbn [string_cell source iter].
    now rewrite kept_chars.
Qed.

Lemma string_source_loses_every_percent_witness :
  exists before after,
    reconstruct [code_cell ["a = 7"]] = Ok before
    /\ reconstruct [code_cell ["c = 3"]] = Ok after
    /\ reconstruct ([code_cell ["a = 7"]]
                      ++ string_cell ("%%background" ++ nl ++ "b = a % 2")
                      :: [code_cell ["c = 3"]])
       = Ok (before
             ++ (remove_percent ("%%background" ++ nl ++ "b = a % 2") ++ nl)
             ++ after).
Proof.
  apply (string_source_loses_every_percent [code_cell ["a = 7"]]
           [code_cell ["c = 3"]] ("%%background" ++ nl ++ "b = a % 2")).
  - intros H. discriminate H.
  - intros c [<-|[]]. reflexivity.
Defined.

(** ** The notification magic *)

Lemma notify_parsed (w : BellWorld) (line : string) (cell : option string)
    (args : Args) :
  parse_argstring w line = inr args ->
  notify w line cell
  = let code := notify_code args cell in
    let audio := mkAudio (chosen_audio w (url args)) true in
    match audio_init w audio with
    | inl e => ([ExCalled code], inl e)
    | inr _ =>
        match do_display w audio with
        | inl e => ([ExCalled code], inl e)
        | inr _ => ([ExCalled code; Displayed audio], shell_ex w code)
        end
    end.
Proof.
  intros Hp. unfold notify. rewrite Hp.
  unfold try_finally, ex, bell_bind, new_InvisibleAudio, display.
  cbv zeta.
  destruct (audio_init w _) as [e|[]]; [reflexivity|].
  destruct (do_display w _) as [e|[]]; reflexivity.
Qed.

(** X9: when the arguments parse and the sound can be built and shown, the
    magic runs the code once and then shows the sound once, whether the
    code returned or raised, and the outcome of the magic is the outcome of
    the code. *)
Theorem notify_plays_after_code
    (w : BellWorld) (line : string) (cell : option string) (args : Args) :
  let code := notify_code args cell in
  let audio := mkAudio (chosen_audio w (url args)) true in
  parse_argstring w line = inr args ->
  audio_init w audio = inr tt ->
  do_display w audio = inr tt ->
  notify w line cell = ([ExCalled code; Displayed audio], shell_ex w code).
Proof.
  intros code audio Hp Ha Hd. rewrite (notify_parsed w line cell args Hp).
  cbv zeta. fold audio. now rewrite Ha, Hd.
Qed.

Lemma notify_plays_after_code_witness :
  notify (bell_world true) "1/0" None
  = ([ExCalled "1/0"; Displayed (mkAudio (AudioFile "/opt/magics/bell.wav") true)],
     inl (PyExc "ZeroDivisionError"))
  /\ notify (bell_world false) "f()" (Some "g()")
     = ([ExCalled "g()"; Displayed (mkAudio (AudioUrl DEFAULT_URL) true)], inr tt).
Proof.
  split.
  - exact (notify_plays_after_code (bell_world true) "1/0" None
             (mkArgs "/opt/magics/bell.wav" ["1/0"]) eq_refl eq_refl eq_refl).
  - exact (notify_plays_after_code (bell_world false) "f()" (Some "g()")
             (mkArgs "/opt/magics/bell.wav" ["f()"]) eq_refl eq_refl eq_refl).
Defined.

(** X10: in every world the magic calls [shell.ex] once, with the code of
    line 77, when the arguments parse, and not at all when they do not;
    a sound is shown at most once, and only after that call. *)
Theorem notify_trace_shape (w : BellWorld) (line : string) (cell : option string) :
  match parse_argstring w line with
  | inl e => notify w line cell = ([], inl e)
  | inr args =>
      exists rest,
        fst (notify w line cell) = ExCalled (notify_code args cell) :: rest
        /\ (rest = [] \/ exists audio, rest = [Displayed audio])
  end.
Proof.
  destruct (parse_argstring w line) as [e|args] eqn:Hp.
  - unfold notify. now rewrite Hp.
  - rewrite (notify_parsed w line cell args Hp). cbv zeta.
    destruct (audio_init w _) as [e|[]]; [exists []; auto|].
    destruct (do_display w _) as [e|[]]; [exists []; auto|].
    eexists. split; [reflexivity|]. right. eexists. reflexivity.
Qed.

(** X11: the magic never plays a file that is not there.  A sound that was
    shown plays automatically; if it is read from a file, the file is
    [SOUND_FILE] and it exists; if not, it is the address given with the
    arguments, or [DEFAULT_URL] in place of a missing [SOUND_FILE]. *)
Theorem notify_never_plays_missing_file
    (w : BellWorld) (line : string) (cell : option string)
    (audio : InvisibleAudio) :
  In (Displayed audio) (fst (notify w line cell)) ->
  autoplay audio = true
  /\ exists args, parse_argstring w line = inr args
     /\ match audio_from audio with
        | AudioFile f =>
            f = SOUND_FILE w /\ url args = SOUND_FILE w /\ is_file w f = true
        | AudioUrl u =>
            (u = url args /\ u <> SOUND_FILE w)
            \/ (u = DEFAULT_URL /\ url args = SOUND_FILE w
                /\ is_file w (SOUND_FILE w) = false)
        end.
Proof.
  destruct (parse_argstring w line) as [e|args] eqn:Hp.
  - unfold notify. rewrite Hp. intros [].
  - rewrite (notify_parsed w line cell args Hp). cbv zeta.
    assert (Hin : forall t r, In (Displayed audio)
                    (fst (match do_display w (mkAudio (chosen_audio w (url args)) true)
                          with
                          | inl e => ([ExCalled (notify_code args cell)], inl e)
                          | inr _ => (t, r)
                          end : BellIO unit)) ->
                  t = [ExCalled (notify_code args cell);
                       Displayed (mkAudio (chosen_audio w (url args)) true)] ->
                  audio = mkAudio (chosen_audio w (url args)) true).
    { intros t r H ->. destruct (do_display w _) as [e|u]; cbn in H.
      - destruct H as [H|[]]. discriminate H.
      - destruct H as [H|[H|[]]]; [discriminate H | now inversion H]. }
    intros H.
    assert (Ha : audio = mkAudio (chosen_audio w (url args)) true).
    { destruct (audio_init w _) as [e|u].
      - destruct H as [H|[]]. discriminate H.
      - destruct u. eapply Hin; [exact H | reflexivity]. }
    subst audio. split; [reflexivity|]. exists args. split; [reflexivity|].
    cbn [audio_from]. unfold chosen_audio.
    destruct (url args =? SOUND_FILE w) eqn:Hu.
    + apply String.eqb_eq in Hu.
      destruct (is_file w (SOUND_FILE w)) eqn:Hf.
      * rewrite Hu. auto.
      * right. auto.
    + apply String.eqb_neq in Hu. left. auto.
Qed.

Lemma notify_never_plays_missing_file_witness :
  autoplay (mkAudio (AudioUrl DEFAULT_URL) true) = true
  /\ exists args, parse_argstring (bell_world false) "f()" = inr args
     /\ ((DEFAULT_URL = url args /\ DEFAULT_URL <> SOUND_FILE (bell_world false))
         \/ (DEFAULT_URL = DEFAULT_URL /\ url args = SOUND_FILE (bell_world false)
             /\ is_file (bell_world false) (SOUND_FILE (bell_world false)) = false)).
Proof.
  apply (notify_never_plays_missing_file (bell_world false) "f()" None
           (mkAudio (AudioUrl DEFAULT_URL) true)).
  right. left. reflexivity.
Defined.

(** X12: the sound is built and shown in a [finally] block, so a failure
    there decides the outcome: when the arguments parse and the sound cannot
    be built or shown, the code has been run, nothing is shown, and the
    magic raises the exception of the sound, not that of the code. *)
Theorem notify_sound_failure_wins
    (w : BellWorld) (line : string) (cell : option string) (args : Args)
    (e : pyexn) :
  let audio := mkAudio (chosen_audio w (url args)) true in
  parse_argstring w line = inr args ->
  audio_init w audio = inl e
  \/ (audio_init w audio = inr tt /\ do_display w audio = inl e) ->
  notify w line cell = ([ExCalled (notify_code args cell)], inl e).
Proof.
  intros audio Hp H. rewrite (notify_parsed w line cell args Hp). cbv zeta.
  fold audio. destruct H as [-> | [-> ->]]; reflexivity.
Qed.

Lemma notify_sound_failure_wins_witness :
  notify mute_world "1/0" None = ([ExCalled "1/0"], inl (PyExc "no front end")).
Proof.
  apply (notify_sound_failure_wins mute_world "1/0" None
           (mkArgs "/opt/magics/bell.wav" ["1/0"]) (PyExc "no front end") eq_refl).
  right. split; reflexivity.
Defined.

(** ** The hidden audio element *)

Lemma replace_from_skip (old new p s : string) :
  replace_from old new (String.length p) (p ++ s) = replace_from old new 0 s.
Proof.
  induction p as [|c p IH]; [reflexivity|]. cbn [String.length append replace_from].
  exact IH.
Qed.

Lemma replace_no_occurrence (old new s : string) :
  occurs old s = false -> replace s old new = s.
Proof.
  unfold replace. induction s as [|c s IH]; [reflexivity|].
  cbn [occurs replace_from]. intros H. apply orb_false_iff in H as [-> H].
  now rewrite (IH H).
Qed.

Lemma replace_at_occurrence (old new s : string) :
  old <> "" -> replace (old ++ s) old new = new ++ replace s old new.
Proof.
  unfold replace. destruct old as [|a old]; [congruence|]. intros _.
  cbn [append replace_from].
  change (String a (old ++ s)) with (String a old ++ s).
  rewrite startswith_append. cbn [String.length].
  rewrite PeanoNat.Nat.sub_succ, PeanoNat.Nat.sub_0_r.
  now rewrite replace_from_skip.
Qed.

Lemma replace_before_occurrence (old new before s : string) (a : ascii) :
  startswith old (String a "") = true -> has_char a before = false ->
  replace (before ++ s) old new = before ++ replace s old new.
Proof.
  unfold replace. intros Ha. induction before as [|c before IH]; [reflexivity|].
  cbn [has_char append replace_from]. intros H.
  apply orb_false_iff in H as [Hc H].
  destruct old as [|a' old]; [discriminate Ha|].
  rewrite startswith_cons, startswith_empty, andb_true_r in Ha.
  apply Ascii.eqb_eq in Ha. subst a'.
  rewrite startswith_cons, Ascii.eqb_sym, Hc. cbn [andb].
  now rewrite (IH H).
Qed.

(** X13: an HTML text without ["<audio"] goes through [_repr_html_]
    unchanged, inside the hidden [div]. *)
Theorem repr_html_without_audio_tag (html : string) :
  occurs "<audio" html = false ->
  _repr_html_ html = div_open ++ html ++ "</div>".
Proof.
  intros H. unfold _repr_html_. cbv zeta. now rewrite replace_no_occurrence.
Qed.

Lemma repr_html_without_audio_tag_witness :
  _repr_html_ "<b>no sound</b>" = div_open ++ "<b>no sound</b>" ++ "</div>".
Proof.
  exact (repr_html_without_audio_tag "<b>no sound</b>" eq_refl).
Defined.

(** X14: the audio element gets its [onended] handler.  For an HTML text
    with one audio element (no ['<'] before its tag, no other ["<audio"]
    after it), [_repr_html_] returns the same text with the handler put
    right after ["<audio"], inside the hidden [div]; the closing tag
    ["</audio>"] is left alone. *)
Theorem repr_html_audio_element (before rest : string) :
  has_char "<" before = false ->
  occurs "<audio" rest = false ->
  _repr_html_ (before ++ "<audio" ++ rest)
  = div_open ++ (before ++ audio_onended ++ rest) ++ "</div>".
Proof.
  intros Hb Hr. unfold _repr_html_. cbv zeta.
  rewrite (replace_before_occurrence "<audio" audio_onended before _ "<" eq_refl Hb).
  rewrite replace_at_occurrence by discriminate.
  now rewrite (replace_no_occurrence _ _ rest Hr).
Qed.

Lemma repr_html_audio_element_witness :
  _repr_html_ ipython_audio_html
  = div_open
    ++ ((nl ++ "  ") ++ audio_onended
        ++ (" controls=" ++ dq ++ "controls" ++ dq ++ " autoplay>" ++ nl
            ++ "    <source src=" ++ dq ++ "bell.wav" ++ dq ++ " />" ++ nl
            ++ "  </audio>" ++ nl))
    ++ "</div>".
Proof.
  exact (repr_html_audio_element (nl ++ "  ")
           (" controls=" ++ dq ++ "controls" ++ dq ++ " autoplay>" ++ nl
            ++ "    <source src=" ++ dq ++ "bell.wav" ++ dq ++ " />" ++ nl
            ++ "  </audio>" ++ nl) eq_refl eq_refl).
Defined.

(** ** Leaving the block *)

Lemma background_exit_shape (x : ExitWorld) (line cell : string) :
  (exists e, background_exit x line cell = ([], Raise e))
  \/ exists f nb name t r,
       get_notebook_name (base x) = Ok f
       /\ open_json_load (base x) f = Ok nb
       /\ body_shape name (render (included (cells nb))) t r
       /\ background_exit x line cell
          = leave_block x name (TempCreated (dirname (base x) f) name :: t) r.
Proof.
  destruct (get_notebook_name (base x)) as [e|f] eqn:Hf.
  { left. exists e. unfold background_exit, bind, pure_call. cbv zeta.
    now rewrite Hf. }
  destruct (open_json_load (base x) f) as [e|nb] eqn:Hr.
  { left. exists e. unfold background_exit, bind, pure_call. cbv zeta.
    now rewrite Hf, Hr. }
  assert (Hrun : background_exit x line cell
                 = with_NamedTemporaryFile_exit x (dirname (base x) f) (fun tmp =>
                     _ <- tmp_write (base x) tmp (render (included (cells nb))) ;;
                     _ <- tmp_seek (base x) tmp 0 ;;
                     _ <- Popen (base x) ["python"; tmp] ;;
                     sleep (1 # 2))).
  { unfold background_exit, pure_call. cbv zeta. rewrite Hf. unfold bind at 1.
    rewrite Hr. unfold bind at 1. rewrite reconstruct_included.
    unfold Ok. unfold bind at 1.
    destruct (with_NamedTemporaryFile_exit _ _ _) as [t r]. now destruct r. }
  rewrite Hrun. unfold with_NamedTemporaryFile_exit.
  destruct (new_temp (base x) (dirname (base x) f)) as [e|name];
    [left; now exists e|].
  right. exists f, nb, name.
  unfold tmp_write, tmp_seek, Popen, effect_call, sleep, bind.
  destruct (do_write (base x) name (render (included (cells nb)))) as [e|[]];
    [do 2 eexists; refine (conj eq_refl (conj Hr (conj (body_write_failed _ _ e) eq_refl)))|].
  destruct (do_seek (base x) name 0) as [e|[]];
    [do 2 eexists; refine (conj eq_refl (conj Hr (conj (body_seek_failed _ _ e) eq_refl)))|].
  destruct (do_popen (base x) ["python"; name]) as [e|[]]; do 2 eexists.
  - refine (conj eq_refl (conj Hr (conj (body_launch_failed _ _ e) eq_refl))).
  - refine (conj eq_refl (conj Hr (conj (body_launched _ _) eq_refl))).
Qed.

(** In a world where the block can always be left, the magic is the one
    modelled first. *)
Lemma background_exit_succeeds (x : ExitWorld) (line cell : string) :
  (forall name, do_close x name = Ok tt) ->
  (forall name, do_unlink x name = Ok tt) ->
  background_exit x line cell = background (base x) line cell.
Proof.
  intros Hc Hu. unfold background_exit, background. cbv zeta.
  unfold with_NamedTemporaryFile_exit, with_NamedTemporaryFile, leave_block, bind,
    pure_call.
  destruct (get_notebook_name (base x)) as [e|f]; [reflexivity|].
  destruct (open_json_load (base x) f) as [e|nb]; [reflexivity|].
  destruct (reconstruct (cells nb)) as [e|code]; [reflexivity|].
  destruct (new_temp (base x) (dirname (base x) f)) as [e|name]; [reflexivity|].
  rewrite Hc, Hu. unfold Ok.
  destruct (tmp_write (base x) name code) as [t [e|[]]]; [reflexivity|].
  destruct (tmp_seek (base x) name 0) as [t1 [e|[]]]; [reflexivity|].
  destruct (Popen (base x) ["python"; name]) as [t2 [e|[]]]; reflexivity.
Qed.

(** X1: the temporary file is left behind only by a failing exit.  A run
    creates at most one file.  When the file can be closed and unlinked,
    the last event of the run deletes it, whatever failed inside the block
    ([tmp.write], [tmp.seek] or [Popen]).  When closing raises, as it does
    when the flush that failed at [tmp.seek(0)] fails again, or when the
    unlink raises, the file is not deleted by the run and that exception is
    the outcome of the magic. *)
Theorem temp_file_left_only_by_failed_exit
    (x : ExitWorld) (line cell : string) :
  let run := background_exit x line cell in
  (List.length (filter is_TempCreated (fst run)) <= 1)%nat
  /\ forall d name, In (TempCreated d name) (fst run) ->
       (do_close x name = Ok tt -> do_unlink x name = Ok tt ->
          last (fst run) (Slept 0) = TempDeleted name)
       /\ (forall e, do_close x name = Raise e ->
             snd run = Raise e /\ filter is_TempDeleted (fst run) = [])
       /\ (forall e, do_close x name = Ok tt -> do_unlink x name = Raise e ->
             snd run = Raise e /\ filter is_TempDeleted (fst run) = []).
Proof.
  cbv zeta.
  destruct (background_exit_shape x line cell)
    as [[e ->]|(f & nb & name & t & r & _ & _ & Hb & ->)].
  - split; [cbn; repeat constructor|]. intros d name [].
  - unfold leave_block. unfold Ok, Raise.
    destruct Hb; destruct (do_close x name) as [ec|[]] eqn:Hc;
      try destruct (do_unlink x name) as [eu|[]] eqn:Hu;
      (split; [cbn; repeat constructor|]);
      intros d0 name0 Hin; cbn in Hin; split_in Hin;
      inversion Hin; subst d0 name0; rewrite Hc, ?Hu;
      (split; [intros H1 H2; try discriminate; reflexivity|]);
      (split; [intros e' H1|intros e' H1 H2]; try discriminate;
       try (inversion H1; subst); try (inversion H2; subst); split; reflexivity).
Qed.

Lemma temp_file_left_only_by_failed_exit_witness :
  snd (background_exit (still_full_world example_doc) "" "")
  = Raise (OSError "No space left on device")
  /\ filter is_TempDeleted (fst (background_exit (still_full_world example_doc) "" ""))
     = [].
Proof.
  refine (proj1 (proj2 (proj2 (temp_file_left_only_by_failed_exit
                                 (still_full_world example_doc) "" "")
                          "/home/u" "/home/u/tmpk3f9" _))
            (OSError "No space left on device") eq_refl).
  left. reflexivity.
Defined.

(** X3: the magic returns without an exception exactly when a process was
    started and the temporary file deleted; it sleeps, for half a second,
    exactly when a process was started; and a run that raises after it has
    started the process raises the exception of the exit of the block. *)
Theorem background_exit_returns_iff (x : ExitWorld) (line cell : string) :
  let run := background_exit x line cell in
  (snd run = Ok tt
   <-> (exists argv, In (Spawned argv) (fst run))
       /\ exists name, In (TempDeleted name) (fst run))
  /\ (forall q, In (Slept q) (fst run)
                <-> q = (1 # 2)%Q /\ exists argv, In (Spawned argv) (fst run))
  /\ (forall e, snd run = Raise e -> (exists argv, In (Spawned argv) (fst run)) ->
        exists name, do_close x name = Raise e
                     \/ (do_close x name = Ok tt /\ do_unlink x name = Raise e)).
Proof.
  cbv zeta.
  destruct (background_exit_shape x line cell)
    as [[e ->]|(f & nb & name & t & r & _ & _ & Hb & ->)].
  - cbn. split; [split; [discriminate|intros [[argv []] _]]|].
    split; [intros q; split; [intros []|intros [_ [argv []]]]|].
    intros e' _ [argv []].
  - unfold leave_block. unfold Ok, Raise.
    destruct Hb; destruct (do_close x name) as [ec|[]] eqn:Hc;
      try destruct (do_unlink x name) as [eu|[]] eqn:Hu; cbn;
      (split; [split;
               [intros H; try discriminate H; split; eexists; cbn; eauto 10
               |intros [[argv Hs] [n Hd]]; split_in Hs; split_in Hd; reflexivity]|]);
      (split; [intros q; split;
               [intros Hin; split_in Hin; inversion Hin;
                (split; [reflexivity | eexists; cbn; eauto 10])
               |intros [-> [argv Hs]]; split_in Hs; cbn; eauto 10]|]);
      intros e' He [argv Hs]; split_in Hs; try discriminate He;
      inversion He; subst; exists name; rewrite ?Hu; auto.
Qed.

Lemma background_exit_returns_iff_witness :
  exists name,
    do_close (file_gone_world example_doc) name = Raise FileNotFoundError
    \/ (do_close (file_gone_world example_doc) name = Ok tt
        /\ do_unlink (file_gone_world example_doc) name = Raise FileNotFoundError).
Proof.
  refine (proj2 (proj2 (background_exit_returns_iff
                          (file_gone_world example_doc) "" ""))
            FileNotFoundError eq_refl _).
  exists ["python"; "/home/u/tmpk3f9"]. cbn. do 3 right. left. reflexivity.
Defined.
